(** * The rate limiter of [limiter.py]: a shallow embedding and its properties

    The module defines three admission statuses, the constants of three
    algorithms and a class [Limiter] whose method [incrementRate] routes a
    client identifier to the selected algorithm.

    Modelling choices, all read off the source:
    - Python's [float] and [int] counters that take part in the rate
      arithmetic are exact rationals ([Q]); the excess counter and the
      expirations are integers ([Z]).  Python's [/] raises
      [ZeroDivisionError] on a zero divisor, which is written out.
    - [time.time()] is an input of each call ([now]).
    - A method is a function from the receiver to an outcome (a returned
      value or a raised exception) and the receiver after the call: what the
      method did to the store before raising stays done.
    - The record kept per client is the 4-tuple the methods unpack with
      [data[0]] .. [data[3]].
    - The set-up statements of the module (lines 131-147) and the debug
      logging of lines 276 and 357 take no part in a status or a store
      access and are left out. *)

From Stdlib Require Import ZArith QArith Lqa.
From stdpp Require Import base option gmap strings list.

Open Scope Q_scope.

(** ** Constants (lines 33-122) *)

(** Limiter status: [STATUS_NO_BLOCK = 0], [STATUS_SHORT_BLOCK = 1],
    [STATUS_EXTENDED_BLOCK = 2]. *)
Inductive Status : Type :=
  | STATUS_NO_BLOCK
  | STATUS_SHORT_BLOCK
  | STATUS_EXTENDED_BLOCK.

#[global] Instance Status_eq_dec : EqDecision Status.
Proof. solve_decision. Defined.

Definition status_code (s : Status) : Z :=
  match s with
  | STATUS_NO_BLOCK => 0
  | STATUS_SHORT_BLOCK => 1
  | STATUS_EXTENDED_BLOCK => 2
  end%Z.

Definition _A1_ALGORITHM_ID : Z := 1.
Definition _A1_MAXIMUM_RATE : Q := 4.
Definition _A1_MAXIMUM_EXCESSES : Z := 30.
Definition _A1_EXTENDED_BLOCK_EXPIRATION : Z := 21600.
Definition _A1_EXPIRATION : Z := 3600.

Definition _ALGORITHM_ID_A2 : Z := 2.
Definition _A2_REQUESTS : Q := 10.
Definition _A2_PERIOD : Q := 5.
Definition _A2_ALLOWANCE : Q := _A2_REQUESTS / _A2_PERIOD.
Definition _A2_MAXIMUM_EXCESSES : Z := 30.
Definition _A2_EXTENDED_BLOCK_EXPIRATION : Z := 60 * 60 * 6.
Definition _A2_EXPIRATION : Z := 3600.

Definition _A3_ALGORITHM_ID : Z := 3.

(** The algorithm the module selects. *)
Definition _ALGORITHM_ID : Z := _A3_ALGORITHM_ID.

(** ** Values *)

(** The stored tuple: [(rate or allowance, last, excesses, status)]. *)
Abbreviation Data := (Q * Q * Z * Status)%type (only parsing).

(** A client identifier or store key as a caller can pass it: a string, or
    Python's [None]. *)
Definition PyStr : Type := option string.

(** Python truthiness of such a value: [None] and the empty string are
    false. *)
Definition truthy (s : PyStr) : bool :=
  match s with
  | None => false
  | Some k => negb (String.eqb k "")
  end.

(** Comparisons of the rate arithmetic. *)
Definition Qgeb (x y : Q) : bool := Qle_bool y x.
Definition Qltb (x y : Q) : bool := negb (Qle_bool y x).
Definition Qgtb (x y : Q) : bool := negb (Qle_bool x y).

(** The exceptions the methods can raise. *)
Inductive PyExn : Type :=
  | ValueError (msg : string)
  | AttributeError (msg : string)
  | NameError (msg : string)
  | ZeroDivisionError (msg : string).

Inductive Outcome (A : Type) : Type :=
  | Return (a : A)
  | Raise (e : PyExn).
Arguments Return {A} a.
Arguments Raise {A} e.

(** ** The store *)

(** Modelled from the spec: the database object behind [self._database]
    (the constructor leaves a placeholder, "replace this with something
    worthy").  The spec's store has [get(key) -> value | absent] and
    [set(key, value, ttl)]; every call is also recorded, as a store spy
    would. *)
Inductive StoreCall : Type :=
  | StoreGet (key : string)
  | StoreSet (key : string) (value : Data) (expiration : Z).

Record Database : Type := mkDatabase {
  entries : gmap string (Data * Z);
  calls : list StoreCall
}.

Definition db_get (key : string) (db : Database) : option Data * Database :=
  (fst <$> entries db !! key,
   mkDatabase (entries db) (calls db ++ [StoreGet key])).

Definition db_set (key : string) (value : Data) (expiration : Z)
    (db : Database) : Database :=
  mkDatabase (<[key := (value, expiration)]> (entries db))
             (calls db ++ [StoreSet key value expiration]).

Definition is_get (c : StoreCall) : bool :=
  match c with StoreGet _ => true | StoreSet _ _ _ => false end.
Definition is_set (c : StoreCall) : bool :=
  match c with StoreGet _ => false | StoreSet _ _ _ => true end.

(** Number of reads and of writes a store has seen. *)
Definition reads (db : Database) : nat := length (filter is_get (calls db)).
Definition writes (db : Database) : nat := length (filter is_set (calls db)).

(** ** The class [Limiter] *)

(** An instance as [__init__] builds it: the only instance attribute is
    [_database] (line 173). *)
Record Limiter : Type := mkLimiter {
  _database : Database
}.

(** A method body: it runs on the receiver and yields an outcome and the
    receiver after the call. *)
Definition Py (A : Type) : Type := Limiter -> Outcome A * Limiter.

#[global] Instance Py_ret : MRet Py := fun A a self => (Return a, self).
#[global] Instance Py_bind : MBind Py := fun A B f m self =>
  match m self with
  | (Return a, self') => f a self'
  | (Raise e, self') => (Raise e, self')
  end.

Definition raise {A : Type} (e : PyExn) : Py A := fun self => (Raise e, self).

(** An expression that may raise but does not touch the receiver. *)
Definition eval {A : Type} (o : Outcome A) : Py A := fun self => (o, self).

(** [_get] (lines 375-386). *)
Definition _get (key : PyStr) : Py (option Data) := fun self =>
  match key with
  | Some k =>
      if negb (truthy key) then (Raise (ValueError "Missing or invalid key"), self)
      else let '(value, db) := db_get k (_database self) in
           (Return value, mkLimiter db)
  | None => (Raise (ValueError "Missing or invalid key"), self)
  end.

(** [_set] (lines 402-410). *)
Definition _set (key : PyStr) (value : Data) (expiration : Z) : Py unit :=
  fun self =>
  match key with
  | Some k =>
      if negb (truthy key) then (Raise (ValueError "Missing or invalid key"), self)
      else (Return tt, mkLimiter (db_set k value expiration (_database self)))
  | None => (Raise (ValueError "Missing or invalid key"), self)
  end.

(** The attribute reference [self.clientIdentifier] of line 275.  Neither
    [__init__] nor the class body binds an attribute of that name, so the
    lookup raises. *)
Definition self_clientIdentifier : Py PyStr :=
  raise (AttributeError "'Limiter' object has no attribute 'clientIdentifier'").

(** The name [rate] as line 356 reads it inside [_A2_incrementRate]: the
    method assigns no local of that name and the module no global. *)
Definition _A2_name_rate : Py Q :=
  raise (NameError "name 'rate' is not defined").

(** *** Algorithm 1 *)

(** Line 236: the fields of a client the store has no record of. *)
Definition _A1_initial : Data := (0, 0, 0%Z, STATUS_NO_BLOCK).

(** Lines 252-272 of [_A1_incrementRate]: the new rate, the excess count,
    the status and the expiration computed from the unpacked fields and the
    clock. *)
Definition _A1_evaluate (rate last : Q) (excesses : Z) (status : Status)
    (now : Q) : Outcome (Q * Z * Status * Z) :=
  let divisor := (now - last) + 1 in
  if Qeq_bool divisor 0 then Raise (ZeroDivisionError "float division by zero")
  else
    let rate := (1 + rate) / divisor in
    let '(excesses, status) :=
      if Qgeb rate _A1_MAXIMUM_RATE then
        let excesses :=
          if bool_decide (status = STATUS_NO_BLOCK) then (excesses + 1)%Z
          else excesses in
        if negb (_A1_MAXIMUM_EXCESSES =? -1)%Z
           && (excesses >? _A1_MAXIMUM_EXCESSES)%Z
        then (excesses, STATUS_EXTENDED_BLOCK)
        else (excesses, STATUS_SHORT_BLOCK)
      else (excesses, status) in
    let expiration :=
      if bool_decide (status = STATUS_EXTENDED_BLOCK)
      then _A1_EXTENDED_BLOCK_EXPIRATION else _A1_EXPIRATION in
    Return (rate, excesses, status, expiration).

(** Lines 249-280: what the method does once the fields are unpacked. *)
Definition _A1_continue (clientIdentifier : PyStr)
    (rate last : Q) (excesses : Z) (status : Status) (now : Q) : Py Status :=
  '(rate, excesses, status, expiration) ←
      eval (_A1_evaluate rate last excesses status now);
  key ← self_clientIdentifier;
  _ ← _set key (rate, now, excesses, status) expiration;
  mret status.

(** [_A1_incrementRate] (lines 224-280). *)
Definition _A1_incrementRate (clientIdentifier : PyStr) (now : Q)
    : Py Status :=
  data ← _get clientIdentifier;
  match data with
  | Some (rate, last, excesses, status) =>
      if bool_decide (status = STATUS_EXTENDED_BLOCK) then mret status
      else _A1_continue clientIdentifier rate last excesses status now
  | None =>
      let '(rate, last, excesses, status) := _A1_initial in
      _A1_continue clientIdentifier rate last excesses status now
  end.

(** *** Algorithm 2 *)

(** Line 308: the fields of a client the store has no record of. *)
Definition _A2_initial : Data := (_A2_ALLOWANCE, 0, 0%Z, STATUS_NO_BLOCK).

(** Lines 324-329 of [_A2_incrementRate]: the allowance after the elapsed
    time has been credited and the cap applied. *)
Definition _A2_replenish (allowance last now : Q) : Q :=
  let allowance := allowance + (now - last) * _A2_ALLOWANCE in
  if Qgtb allowance _A2_REQUESTS then _A2_REQUESTS else allowance.

(** Lines 324-353 of [_A2_incrementRate]: the new allowance, the excess
    count, the status and the expiration. *)
Definition _A2_evaluate (allowance last : Q) (excesses : Z) (status : Status)
    (now : Q) : Q * Z * Status * Z :=
  let allowance := _A2_replenish allowance last now in
  let '(allowance, excesses, status) :=
    if Qltb allowance 1 then
      let excesses :=
        if bool_decide (status = STATUS_NO_BLOCK) then (excesses + 1)%Z
        else excesses in
      if negb (_A2_MAXIMUM_EXCESSES =? -1)%Z
         && (excesses >? _A2_MAXIMUM_EXCESSES)%Z
      then (allowance, excesses, STATUS_EXTENDED_BLOCK)
      else (allowance, excesses, STATUS_SHORT_BLOCK)
    else (allowance - 1, excesses, STATUS_NO_BLOCK) in
  let expiration :=
    if bool_decide (status = STATUS_EXTENDED_BLOCK)
    then _A2_EXTENDED_BLOCK_EXPIRATION else _A2_EXPIRATION in
  (allowance, excesses, status, expiration).

(** Lines 321-361: what the method does once the fields are unpacked.  The
    tuple handed to [_set] is [(rate, now, excesses, status)]. *)
Definition _A2_continue (clientIdentifier : PyStr)
    (allowance last : Q) (excesses : Z) (status : Status) (now : Q)
    : Py Status :=
  let '(allowance, excesses, status, expiration) :=
    _A2_evaluate allowance last excesses status now in
  rate ← _A2_name_rate;
  _ ← _set clientIdentifier (rate, now, excesses, status) expiration;
  mret status.

(** [_A2_incrementRate] (lines 296-361). *)
Definition _A2_incrementRate (clientIdentifier : PyStr) (now : Q)
    : Py Status :=
  data ← _get clientIdentifier;
  match data with
  | Some (allowance, last, excesses, status) =>
      if bool_decide (status = STATUS_EXTENDED_BLOCK) then mret status
      else _A2_continue clientIdentifier allowance last excesses status now
  | None =>
      let '(allowance, last, excesses, status) := _A2_initial in
      _A2_continue clientIdentifier allowance last excesses status now
  end.

(** *** The entry point *)

(** [incrementRate] (lines 190-208).  The module constant [_ALGORITHM_ID]
    the routing compares against is the first argument, so that each
    algorithm can be selected; the module itself selects [_ALGORITHM_ID]. *)
Definition incrementRate (algorithm : Z) (clientIdentifier : PyStr) (now : Q)
    : Py Status :=
  if negb (truthy clientIdentifier)
  then raise (ValueError "Missing or invalid client identifier")
  else if (algorithm =? _A1_ALGORITHM_ID)%Z
  then _A1_incrementRate clientIdentifier now
  else if (algorithm =? _ALGORITHM_ID_A2)%Z
  then _A2_incrementRate clientIdentifier now
  else if (algorithm =? _A3_ALGORITHM_ID)%Z
  then mret STATUS_NO_BLOCK
  else raise (ValueError "No algorithm was selected").

(** ** Drivers *)

(** A sequence of calls on one limiter: each call has its own identifier
    and clock reading; an exception ends that call only. *)
Fixpoint run_checks (algorithm : Z) (requests : list (PyStr * Q))
    (self : Limiter) : list (Outcome Status) * Limiter :=
  match requests with
  | [] => ([], self)
  | (clientIdentifier, now) :: rest =>
      let '(o, self') := incrementRate algorithm clientIdentifier now self in
      let '(os, self'') := run_checks algorithm rest self' in
      (o :: os, self'')
  end.

(** A limiter over a store that holds [entries] and has seen no call. *)
Definition limiter_over (m : gmap string (Data * Z)) : Limiter :=
  mkLimiter (mkDatabase m []).

(** ** Derived definitions *)

(** Line 253: the rate algorithm 1 computes when the divisor is not zero. *)
Definition _A1_new_rate (rate last now : Q) : Q :=
  (1 + rate) / ((now - last) + 1).

(** The excess count stored for a client, if a record is stored. *)
Definition stored_excesses (self : Limiter) (key : string) : option Z :=
  (λ entry : Data * Z, entry.1.1.2) <$> entries (_database self) !! key.

(** A store in which one client is extended-blocked. *)
Definition extended_blocked_store : gmap string (Data * Z) :=
  {[ "10.0.0.7" := ((5, 1000, 31%Z, STATUS_EXTENDED_BLOCK), 21600%Z) ]}.

(** A store in which one client is short-blocked. *)
Definition short_blocked_store : gmap string (Data * Z) :=
  {[ "10.0.0.7" := ((9 # 2, 1000, 1%Z, STATUS_SHORT_BLOCK), 3600%Z) ]}.

(** A store in which one client stands at the threshold of algorithm 1:
    status Allowed, no excess counted, rate 4 at clock 1000. *)
Definition A1_threshold_store : gmap string (Data * Z) :=
  {[ "10.0.0.7" := ((4, 1000, 0%Z, STATUS_NO_BLOCK), 3600%Z) ]}.

(** A store in which one client stands at the threshold of algorithm 2:
    status Allowed, no excess counted, allowance 0 at clock 1000. *)
Definition A2_threshold_store : gmap string (Data * Z) :=
  {[ "10.0.0.7" := ((0, 1000, 0%Z, STATUS_NO_BLOCK), 3600%Z) ]}.

(** The requests of a burst of one client: eleven at clock [t0] and a
    twelfth one second later. *)
Definition burst_requests (key : string) (t0 : Q) : list (PyStr * Q) :=
  repeat (Some key, t0) 11 ++ [(Some key, t0 + 1)].

(** The store keys of the requests whose identifier passes the check of
    line 193. *)
Definition valid_keys (requests : list (PyStr * Q)) : list string :=
  omap (λ r : PyStr * Q, if truthy r.1 then r.1 else None) requests.

(** Whether the selector routes to one of the two algorithms that use the
    store (lines 198-202). *)
Definition uses_store (algorithm : Z) : bool :=
  (algorithm =? _A1_ALGORITHM_ID)%Z || (algorithm =? _ALGORITHM_ID_A2)%Z.

(** ** Basic facts about the store and the accessors *)

Section Accessors.

Variables (key : string) (self : Limiter).
Hypothesis key_nonempty : key ≠ "".

Lemma truthy_Some : truthy (Some key) = true.
Proof using key_nonempty.
  unfold truthy. destruct (String.eqb_spec key ""); [contradiction | reflexivity].
Qed.

(** A read with a non-empty key looks the key up and is recorded. *)
Lemma _get_Some :
  _get (Some key) self =
  (Return (fst <$> entries (_database self) !! key),
   mkLimiter (mkDatabase (entries (_database self))
                         (calls (_database self) ++ [StoreGet key]))).
Proof using key_nonempty.
  unfold _get. rewrite truthy_Some. reflexivity.
Qed.

(** A write with a non-empty key stores the value with its expiration and
    is recorded. *)
Lemma _set_Some (value : Data) (expiration : Z) :
  _set (Some key) value expiration self =
  (Return tt,
   mkLimiter (mkDatabase (<[key := (value, expiration)]> (entries (_database self)))
                         (calls (_database self)
                            ++ [StoreSet key value expiration]))).
Proof using key_nonempty.
  unfold _set. rewrite truthy_Some. reflexivity.
Qed.

End Accessors.

Lemma truthy_false (s : PyStr) : truthy s = false ↔ s = None ∨ s = Some "".
Proof.
  destruct s as [k|]; simpl.
  - destruct (String.eqb_spec k ""); simpl; subst; split; intros H; auto.
    + discriminate.
    + destruct H as [H|H]; [discriminate | congruence].
  - split; auto.
Qed.

Lemma truthy_true (s : PyStr) : truthy s = true ↔ ∃ k, s = Some k ∧ k ≠ "".
Proof.
  destruct s as [k|]; simpl.
  - destruct (String.eqb_spec k ""); simpl; split.
    + discriminate.
    + intros (k' & [= <-] & Hk). contradiction.
    + eauto.
    + reflexivity.
  - split; [discriminate | intros (k & Hk & _); discriminate].
Qed.

Lemma reads_app (m : gmap string (Data * Z)) (cs ds : list StoreCall) :
  reads (mkDatabase m (cs ++ ds)) = (reads (mkDatabase m cs) + length (filter is_get ds))%nat.
Proof. unfold reads; simpl. rewrite filter_app, length_app. reflexivity. Qed.

Lemma writes_app (m : gmap string (Data * Z)) (cs ds : list StoreCall) :
  writes (mkDatabase m (cs ++ ds)) = (writes (mkDatabase m cs) + length (filter is_set ds))%nat.
Proof. unfold writes; simpl. rewrite filter_app, length_app. reflexivity. Qed.

(** ** What the two continuations do *)

(** Algorithm 1 never reaches its [_set]: the division raises, or else the
    key expression does; the receiver is as it was. *)
Lemma _A1_continue_raises (clientIdentifier : PyStr) (rate last : Q)
    (excesses : Z) (status : Status) (now : Q) (self : Limiter) :
  ∃ e : PyExn,
    _A1_continue clientIdentifier rate last excesses status now self = (Raise e, self)
    ∧ (¬ (now - last) + 1 == 0 →
       e = AttributeError "'Limiter' object has no attribute 'clientIdentifier'").
Proof.
  unfold _A1_continue, _A1_evaluate, mbind, Py_bind, eval.
  destruct (Qeq_bool (now - last + 1) 0) eqn:Hd.
  - eexists; split; [reflexivity |].
    intros Hn. apply Qeq_bool_eq in Hd. contradiction.
  - repeat match goal with
           | |- context [if ?b then _ else _] => destruct b
           end; simpl; eexists; split; reflexivity || (intros _; reflexivity).
Qed.

(** Algorithm 2 never reaches its [_set] either: building the tuple
    raises. *)
Lemma _A2_continue_raises (clientIdentifier : PyStr) (allowance last : Q)
    (excesses : Z) (status : Status) (now : Q) (self : Limiter) :
  _A2_continue clientIdentifier allowance last excesses status now self =
  (Raise (NameError "name 'rate' is not defined"), self).
Proof.
  unfold _A2_continue.
  destruct (_A2_evaluate allowance last excesses status now)
    as [[[allowance' excesses'] status'] expiration].
  reflexivity.
Qed.

(** ** The checks and the store *)

(** A check under algorithm 1 or 2 with a non-empty identifier, spelled out
    by the record it finds. *)
Lemma incrementRate_A1_unfold (key : string) (now : Q) (self : Limiter) :
  key ≠ "" →
  incrementRate _A1_ALGORITHM_ID (Some key) now self =
  (data ← _get (Some key);
   match data with
   | Some (rate, last, excesses, status) =>
       if bool_decide (status = STATUS_EXTENDED_BLOCK) then mret status
       else _A1_continue (Some key) rate last excesses status now
   | None => _A1_continue (Some key) 0 0 0%Z STATUS_NO_BLOCK now
   end) self.
Proof.
  intros Hk. unfold incrementRate. rewrite truthy_Some by assumption.
  reflexivity.
Qed.

Lemma incrementRate_A2_unfold (key : string) (now : Q) (self : Limiter) :
  key ≠ "" →
  incrementRate _ALGORITHM_ID_A2 (Some key) now self =
  (data ← _get (Some key);
   match data with
   | Some (allowance, last, excesses, status) =>
       if bool_decide (status = STATUS_EXTENDED_BLOCK) then mret status
       else _A2_continue (Some key) allowance last excesses status now
   | None => _A2_continue (Some key) _A2_ALLOWANCE 0 0%Z STATUS_NO_BLOCK now
   end) self.
Proof.
  intros Hk. unfold incrementRate. rewrite truthy_Some by assumption.
  reflexivity.
Qed.

(** No check, under any algorithm and with any identifier, changes what the
    store holds or adds a write to the calls it has seen. *)
Lemma incrementRate_store (algorithm : Z) (clientIdentifier : PyStr)
    (now : Q) (self : Limiter) :
  let '(_, self') := incrementRate algorithm clientIdentifier now self in
  entries (_database self') = entries (_database self)
  ∧ writes (_database self') = writes (_database self)
  ∧ (self' = self
     ∨ ∃ key, clientIdentifier = Some key
        ∧ calls (_database self') = calls (_database self) ++ [StoreGet key]).
Proof.
  destruct self as [[m cs]].
  unfold incrementRate.
  destruct (truthy clientIdentifier) eqn:Ht; simpl; [| auto].
  apply truthy_true in Ht as (key & -> & Hk).
  assert (Hw : writes (mkDatabase m (cs ++ [StoreGet key])) = writes (mkDatabase m cs)).
  { rewrite writes_app. simpl. lia. }
  destruct (algorithm =? _A1_ALGORITHM_ID)%Z.
  { unfold _A1_incrementRate, mbind, Py_bind.
    rewrite _get_Some by assumption. simpl.
    destruct (m !! key) as [[[[[rate last] excesses] status] ttl]|]; simpl.
    - destruct (bool_decide (status = STATUS_EXTENDED_BLOCK)).
      + simpl. repeat split; eauto.
      + match goal with
        | |- context [_A1_continue ?a ?b ?c ?d ?e ?f ?s] =>
            destruct (_A1_continue_raises a b c d e f s) as (e' & -> & _)
        end. simpl. repeat split; eauto.
    - match goal with
      | |- context [_A1_continue ?a ?b ?c ?d ?e ?f ?s] =>
          destruct (_A1_continue_raises a b c d e f s) as (e' & -> & _)
      end. simpl. repeat split; eauto. }
  destruct (algorithm =? _ALGORITHM_ID_A2)%Z.
  { unfold _A2_incrementRate, mbind, Py_bind.
    rewrite _get_Some by assumption. simpl.
    destruct (m !! key) as [[[[[allowance last] excesses] status] ttl]|]; simpl.
    - destruct (bool_decide (status = STATUS_EXTENDED_BLOCK)).
      + simpl. repeat split; eauto.
      + rewrite _A2_continue_raises. simpl. repeat split; eauto.
    - rewrite _A2_continue_raises. simpl. repeat split; eauto. }
  destruct (algorithm =? _A3_ALGORITHM_ID)%Z; simpl; auto.
Qed.

(** ** Extended blocks *)

Section ExtendedBlock.

Variables (algorithm : Z) (key : string).
Hypothesis rate_limited :
  algorithm = _A1_ALGORITHM_ID ∨ algorithm = _ALGORITHM_ID_A2.
Hypothesis key_nonempty : key ≠ "".

(** One check on an extended-blocked record: a read, the stored status
    back, nothing else.  The clock is not consulted. *)
Lemma extended_block_check (m : gmap string (Data * Z))
    (cs : list StoreCall) (first last : Q) (excesses ttl : Z) (now : Q) :
  m !! key = Some ((first, last, excesses, STATUS_EXTENDED_BLOCK), ttl) →
  incrementRate algorithm (Some key) now (mkLimiter (mkDatabase m cs)) =
  (Return STATUS_EXTENDED_BLOCK,
   mkLimiter (mkDatabase m (cs ++ [StoreGet key]))).
Proof using rate_limited key_nonempty.
  intros Hm.
  destruct rate_limited as [-> | ->].
  - rewrite incrementRate_A1_unfold by assumption.
    unfold mbind, Py_bind. rewrite _get_Some by assumption.
    cbn [_database entries]. rewrite Hm. reflexivity.
  - rewrite incrementRate_A2_unfold by assumption.
    unfold mbind, Py_bind. rewrite _get_Some by assumption.
    cbn [_database entries]. rewrite Hm. reflexivity.
Qed.

(** Any number of later checks for that client. *)
Lemma extended_block_checks (m : gmap string (Data * Z))
    (first last : Q) (excesses ttl : Z) (nows : list Q) :
  m !! key = Some ((first, last, excesses, STATUS_EXTENDED_BLOCK), ttl) →
  ∀ cs : list StoreCall,
    run_checks algorithm (map (λ now, (Some key, now)) nows)
               (mkLimiter (mkDatabase m cs)) =
    (map (λ _, Return STATUS_EXTENDED_BLOCK) nows,
     mkLimiter (mkDatabase m (cs ++ map (λ _, StoreGet key) nows))).
Proof using rate_limited key_nonempty.
  intros Hm. induction nows as [| now nows' IH]; intros cs; simpl.
  - rewrite app_nil_r. reflexivity.
  - rewrite (extended_block_check m cs first last excesses ttl now Hm).
    rewrite IH. rewrite <- app_assoc. reflexivity.
Qed.

End ExtendedBlock.

(** C3.  Decay-Rate and Token-Bucket: when the stored record of a client has
    status ExtendedBlocked, a check for that client returns ExtendedBlocked
    whatever the clock reads (nothing is recomputed), reads the store once
    and writes nothing; so every later check for that client, while the
    record is there, returns ExtendedBlocked as well and the store keeps
    what it held. *)
Theorem C3_extended_block_is_terminal (algorithm : Z) (key : string)
    (self : Limiter) (first last : Q) (excesses ttl : Z) (nows : list Q) :
  algorithm = _A1_ALGORITHM_ID ∨ algorithm = _ALGORITHM_ID_A2 →
  key ≠ "" →
  entries (_database self) !! key
    = Some ((first, last, excesses, STATUS_EXTENDED_BLOCK), ttl) →
  (∀ now : Q,
     incrementRate algorithm (Some key) now self =
     (Return STATUS_EXTENDED_BLOCK,
      mkLimiter (mkDatabase (entries (_database self))
                            (calls (_database self) ++ [StoreGet key]))))
  ∧ run_checks algorithm (map (λ now, (Some key, now)) nows) self =
    (map (λ _, Return STATUS_EXTENDED_BLOCK) nows,
     mkLimiter (mkDatabase (entries (_database self))
                  (calls (_database self) ++ map (λ _, StoreGet key) nows))).
Proof.
  intros Halg Hk Hm. destruct self as [[m cs]]; simpl in *. split.
  - intros now. eapply extended_block_check; eassumption.
  - eapply extended_block_checks; eassumption.
Qed.

Lemma C3_extended_block_is_terminal_witness :
  run_checks _A1_ALGORITHM_ID
    (map (λ now, (Some "10.0.0.7", now)) [999; 1001; 90000])
    (limiter_over extended_blocked_store) =
  ([Return STATUS_EXTENDED_BLOCK; Return STATUS_EXTENDED_BLOCK;
    Return STATUS_EXTENDED_BLOCK],
   mkLimiter (mkDatabase extended_blocked_store
      [StoreGet "10.0.0.7"; StoreGet "10.0.0.7"; StoreGet "10.0.0.7"])).
Proof.
  apply (C3_extended_block_is_terminal _A1_ALGORITHM_ID "10.0.0.7"
           (limiter_over extended_blocked_store) 5 1000 31%Z 21600%Z [999; 1001; 90000]).
  - left. reflexivity.
  - discriminate.
  - reflexivity.
Defined.

(** ** Invalid identifiers *)

(** C6.  A client identifier that is missing ([None]) or empty makes the
    check raise ValueError('Missing or invalid client identifier') under
    every algorithm selection, and the limiter, hence its store and the
    calls the store has seen, is exactly as before: no read, no write. *)
Theorem C6_invalid_identifier (algorithm : Z) (clientIdentifier : PyStr)
    (now : Q) (self : Limiter) :
  clientIdentifier = None ∨ clientIdentifier = Some "" →
  incrementRate algorithm clientIdentifier now self =
  (Raise (ValueError "Missing or invalid client identifier"), self).
Proof.
  intros H. apply truthy_false in H.
  unfold incrementRate. rewrite H. reflexivity.
Qed.

Lemma C6_invalid_identifier_witness :
  incrementRate _A1_ALGORITHM_ID (Some "") 17 (limiter_over extended_blocked_store) =
  (Raise (ValueError "Missing or invalid client identifier"),
   limiter_over extended_blocked_store).
Proof.
  apply (C6_invalid_identifier _A1_ALGORITHM_ID (Some "") 17
           (limiter_over extended_blocked_store)).
  right. reflexivity.
Defined.

(** ** Algorithm 3 *)

(** C9.  Pass-Through (algorithm 3, the one the module selects): whatever
    the sequence of calls with non-empty identifiers, every call returns
    Allowed and the limiter is unchanged, so the store has seen neither a
    read nor a write. *)
Theorem C9_pass_through (requests : list (PyStr * Q)) (self : Limiter) :
  Forall (λ r, truthy r.1 = true) requests →
  _ALGORITHM_ID = _A3_ALGORITHM_ID
  ∧ run_checks _ALGORITHM_ID requests self =
    (map (λ _, Return STATUS_NO_BLOCK) requests, self).
Proof.
  intros Hall. split; [reflexivity |].
  induction Hall as [| [clientIdentifier now] rest Hr _ IH]; simpl.
  - reflexivity.
  - simpl in Hr. unfold incrementRate at 1. rewrite Hr. simpl.
    rewrite IH. reflexivity.
Qed.

Lemma C9_pass_through_witness :
  run_checks _ALGORITHM_ID [(Some "a", 0); (Some "b", 0); (Some "a", 1)]
    (limiter_over ∅) =
  ([Return STATUS_NO_BLOCK; Return STATUS_NO_BLOCK; Return STATUS_NO_BLOCK],
   limiter_over ∅).
Proof.
  apply (C9_pass_through [(Some "a", 0); (Some "b", 0); (Some "a", 1)]
           (limiter_over ∅)).
  repeat constructor.
Defined.

(** ** The arithmetic of the two algorithms *)

Lemma Qgeb_true (x y : Q) : Qgeb x y = true ↔ y <= x.
Proof. apply Qle_bool_iff. Qed.

Lemma Qltb_true (x y : Q) : Qltb x y = true ↔ x < y.
Proof.
  unfold Qltb. destruct (Qle_bool y x) eqn:H; simpl; split; intros H'.
  - discriminate.
  - apply Qle_bool_iff in H. lra.
  - destruct (Qlt_le_dec x y) as [Hlt | Hle]; [assumption |].
    apply Qle_bool_iff in Hle. congruence.
  - reflexivity.
Qed.

Lemma Qgtb_true (x y : Q) : Qgtb x y = true ↔ y < x.
Proof. apply Qltb_true. Qed.

Lemma Qltb_false (x y : Q) : Qltb x y = false ↔ y <= x.
Proof.
  unfold Qltb. rewrite negb_false_iff. apply Qle_bool_iff.
Qed.

(** Algorithm 1 below the maximum rate: excess count and status are the
    prior ones, whatever the prior status was. *)
Lemma _A1_evaluate_below (rate last : Q) (excesses : Z) (status : Status)
    (now : Q) :
  ¬ (now - last) + 1 == 0 →
  _A1_new_rate rate last now < _A1_MAXIMUM_RATE →
  _A1_evaluate rate last excesses status now =
  Return (_A1_new_rate rate last now, excesses, status,
          if bool_decide (status = STATUS_EXTENDED_BLOCK)
          then _A1_EXTENDED_BLOCK_EXPIRATION else _A1_EXPIRATION).
Proof.
  intros Hd Hlt. unfold _A1_evaluate.
  destruct (Qeq_bool (now - last + 1) 0) eqn:E.
  - apply Qeq_bool_eq in E. contradiction.
  - fold (_A1_new_rate rate last now).
    destruct (Qgeb (_A1_new_rate rate last now) _A1_MAXIMUM_RATE) eqn:G.
    + apply Qgeb_true in G. lra.
    + reflexivity.
Qed.

(** Algorithm 1 at or above the maximum rate. *)
Lemma _A1_evaluate_above (rate last : Q) (excesses : Z) (status : Status)
    (now : Q) :
  ¬ (now - last) + 1 == 0 →
  _A1_MAXIMUM_RATE <= _A1_new_rate rate last now →
  let excesses' :=
    if bool_decide (status = STATUS_NO_BLOCK) then (excesses + 1)%Z
    else excesses in
  _A1_evaluate rate last excesses status now =
  Return (_A1_new_rate rate last now, excesses',
          (if (excesses' >? _A1_MAXIMUM_EXCESSES)%Z
           then STATUS_EXTENDED_BLOCK else STATUS_SHORT_BLOCK),
          (if (excesses' >? _A1_MAXIMUM_EXCESSES)%Z
           then _A1_EXTENDED_BLOCK_EXPIRATION else _A1_EXPIRATION)).
Proof.
  intros Hd Hge. unfold _A1_evaluate.
  destruct (Qeq_bool (now - last + 1) 0) eqn:E.
  - apply Qeq_bool_eq in E. contradiction.
  - fold (_A1_new_rate rate last now).
    apply Qgeb_true in Hge. rewrite Hge. simpl.
    destruct (bool_decide (status = STATUS_NO_BLOCK));
      match goal with
      | |- context [(?e >? ?m)%Z] => destruct (e >? m)%Z
      end; reflexivity.
Qed.

(** The cap of algorithm 2, and what replenishing leaves below it. *)
Lemma _A2_replenish_le (allowance last now : Q) :
  _A2_replenish allowance last now <= _A2_REQUESTS.
Proof.
  unfold _A2_replenish.
  destruct (Qgtb (allowance + (now - last) * _A2_ALLOWANCE) _A2_REQUESTS) eqn:G.
  - lra.
  - unfold Qgtb in G. apply negb_false_iff, Qle_bool_iff in G. exact G.
Qed.

Lemma _A2_replenish_ge (allowance last now : Q) :
  0 <= allowance → last <= now → 0 <= _A2_replenish allowance last now.
Proof.
  intros Ha Hn. unfold _A2_replenish.
  destruct (Qgtb (allowance + (now - last) * _A2_ALLOWANCE) _A2_REQUESTS).
  - unfold _A2_REQUESTS. lra.
  - assert (H2 : _A2_ALLOWANCE == 2) by reflexivity.
    rewrite H2. lra.
Qed.

(** Algorithm 2 by the replenished allowance. *)
Lemma _A2_evaluate_spend (allowance last : Q) (excesses : Z) (status : Status)
    (now : Q) :
  1 <= _A2_replenish allowance last now →
  _A2_evaluate allowance last excesses status now =
  (_A2_replenish allowance last now - 1, excesses, STATUS_NO_BLOCK,
   _A2_EXPIRATION).
Proof.
  intros H. unfold _A2_evaluate.
  apply Qltb_false in H. rewrite H. reflexivity.
Qed.

Lemma _A2_evaluate_exceed (allowance last : Q) (excesses : Z) (status : Status)
    (now : Q) :
  _A2_replenish allowance last now < 1 →
  let excesses' :=
    if bool_decide (status = STATUS_NO_BLOCK) then (excesses + 1)%Z
    else excesses in
  _A2_evaluate allowance last excesses status now =
  (_A2_replenish allowance last now, excesses',
   (if (excesses' >? _A2_MAXIMUM_EXCESSES)%Z
    then STATUS_EXTENDED_BLOCK else STATUS_SHORT_BLOCK),
   (if (excesses' >? _A2_MAXIMUM_EXCESSES)%Z
    then _A2_EXTENDED_BLOCK_EXPIRATION else _A2_EXPIRATION)).
Proof.
  intros H. unfold _A2_evaluate.
  apply Qltb_true in H. rewrite H. simpl.
  destruct (bool_decide (status = STATUS_NO_BLOCK));
    match goal with
    | |- context [(?e >? ?m)%Z] => destruct (e >? m)%Z
    end; reflexivity.
Qed.

(** ** The excess counter *)

(** C8 fails on the code.  A client whose stored status is Allowed with no
    excess counted crosses the threshold at clock 1000 (algorithm 1: new
    rate 5 >= 4; algorithm 2: allowance 0 < 1.0).  Each method computes the
    count 1 and ShortBlocked, but the check ends in AttributeError,
    respectively NameError, before the record is stored: the count stored
    for the client is still 0 after the check, and after any further
    checks. *)
Theorem C8_new_excess_is_not_stored :
  (∃ rate' : Q,
     _A1_evaluate 4 1000 0%Z STATUS_NO_BLOCK 1000 =
     Return (rate', 1%Z, STATUS_SHORT_BLOCK, _A1_EXPIRATION)
     ∧ _A1_MAXIMUM_RATE <= rate')
  ∧ (let '(outcome, self') :=
       incrementRate _A1_ALGORITHM_ID (Some "10.0.0.7") 1000
         (limiter_over A1_threshold_store) in
     outcome = Raise (AttributeError "'Limiter' object has no attribute 'clientIdentifier'")
     ∧ stored_excesses self' "10.0.0.7" = Some 0%Z)
  ∧ (∃ allowance' : Q,
       _A2_evaluate 0 1000 0%Z STATUS_NO_BLOCK 1000 =
       (allowance', 1%Z, STATUS_SHORT_BLOCK, _A2_EXPIRATION)
       ∧ allowance' < 1)
  ∧ (let '(outcome, self') :=
       incrementRate _ALGORITHM_ID_A2 (Some "10.0.0.7") 1000
         (limiter_over A2_threshold_store) in
     outcome = Raise (NameError "name 'rate' is not defined")
     ∧ stored_excesses self' "10.0.0.7" = Some 0%Z)
  ∧ stored_excesses
      (run_checks _A1_ALGORITHM_ID (repeat (Some "10.0.0.7", 1000) 5)
         (limiter_over A1_threshold_store)).2 "10.0.0.7" = Some 0%Z
  ∧ stored_excesses
      (run_checks _ALGORITHM_ID_A2 (repeat (Some "10.0.0.7", 1000) 5)
         (limiter_over A2_threshold_store)).2 "10.0.0.7" = Some 0%Z.
Proof.
  split; [| split; [| split; [| split; [| split]]]].
  - eexists. split; [reflexivity |]. vm_compute. discriminate.
  - vm_compute. split; reflexivity.
  - eexists. split; [reflexivity |]. vm_compute. reflexivity.
  - vm_compute. split; reflexivity.
  - vm_compute. reflexivity.
  - vm_compute. reflexivity.
Qed.

(** X23.  The excess count each algorithm computes: the prior count plus
    one exactly when the threshold is crossed (new rate >= maximum rate,
    respectively replenished allowance < 1.0) with prior status Allowed,
    and the prior count otherwise, so never below the prior count and
    unchanged when the prior status is already ShortBlocked.  Algorithm 1
    computes it whenever its divisor is not zero. *)
Theorem evaluate_counts_new_excess (first last : Q) (excesses : Z)
    (status : Status) (now : Q) :
  match _A1_evaluate first last excesses status now with
  | Return (rate', excesses', _, _) =>
      rate' = _A1_new_rate first last now
      ∧ excesses' =
        (if Qgeb rate' _A1_MAXIMUM_RATE
            && bool_decide (status = STATUS_NO_BLOCK)
         then excesses + 1 else excesses)%Z
      ∧ (excesses <= excesses')%Z
  | Raise _ => (now - last) + 1 == 0
  end
  ∧ (let '(_, excesses', _, _) := _A2_evaluate first last excesses status now in
     excesses' =
       (if Qltb (_A2_replenish first last now) 1
           && bool_decide (status = STATUS_NO_BLOCK)
        then excesses + 1 else excesses)%Z
     ∧ (excesses <= excesses')%Z).
Proof.
  split.
  - unfold _A1_evaluate. fold (_A1_new_rate first last now).
    destruct (Qeq_bool (now - last + 1) 0) eqn:E.
    + apply Qeq_bool_eq in E. exact E.
    + destruct (Qgeb (_A1_new_rate first last now) _A1_MAXIMUM_RATE) eqn:G;
        simpl.
      * destruct (bool_decide (status = STATUS_NO_BLOCK)); simpl;
          match goal with
          | |- context [(?e >? ?m)%Z] => destruct (e >? m)%Z
          end; rewrite G; simpl; repeat split; lia.
      * rewrite G. simpl. repeat split; lia.
  - unfold _A2_evaluate.
    destruct (Qltb (_A2_replenish first last now) 1) eqn:L; simpl.
    + destruct (bool_decide (status = STATUS_NO_BLOCK)); simpl;
        match goal with
        | |- context [(?e >? ?m)%Z] => destruct (e >? m)%Z
        end; split; lia.
    + split; lia.
Qed.

(** ** The allowance *)

(** C10.  Token-Bucket: from a prior allowance within [0, capacity] and a
    clock not before the stored time, the allowance a check computes is
    within [0, capacity]: the replenished allowance is at most the capacity,
    and 1.0 is taken from it only when it is at least 1.0. *)
Theorem C10_allowance_within_bounds (allowance last : Q) (excesses : Z)
    (status : Status) (now : Q) :
  0 <= allowance <= _A2_REQUESTS →
  last <= now →
  let '(allowance', _, _, _) := _A2_evaluate allowance last excesses status now in
  0 <= allowance' <= _A2_REQUESTS
  ∧ _A2_replenish allowance last now <= _A2_REQUESTS
  ∧ allowance' =
    (if Qltb (_A2_replenish allowance last now) 1
     then _A2_replenish allowance last now
     else _A2_replenish allowance last now - 1).
Proof.
  intros [Hlo Hhi] Hnow.
  pose proof (_A2_replenish_le allowance last now) as Hle.
  pose proof (_A2_replenish_ge allowance last now Hlo Hnow) as Hge.
  destruct (Qlt_le_dec (_A2_replenish allowance last now) 1) as [Hlt | Hone].
  - rewrite (_A2_evaluate_exceed allowance last excesses status now Hlt).
    apply Qltb_true in Hlt. rewrite Hlt.
    repeat split; assumption.
  - rewrite (_A2_evaluate_spend allowance last excesses status now Hone).
    apply Qltb_false in Hone as Hb. rewrite Hb.
    repeat split; try assumption; lra.
Qed.

Lemma C10_allowance_within_bounds_witness :
  (0 <= 1 # 2 <= _A2_REQUESTS ∧ 1000 <= 1003)
  ∧ let '(allowance', _, _, _) :=
      _A2_evaluate (1 # 2) 1000 3%Z STATUS_SHORT_BLOCK 1003 in
    0 <= allowance' <= _A2_REQUESTS
    ∧ _A2_replenish (1 # 2) 1000 1003 <= _A2_REQUESTS
    ∧ allowance' =
      (if Qltb (_A2_replenish (1 # 2) 1000 1003) 1
       then _A2_replenish (1 # 2) 1000 1003
       else _A2_replenish (1 # 2) 1000 1003 - 1).
Proof.
  assert (Hb : 0 <= 1 # 2 <= _A2_REQUESTS)
    by (split; unfold Qle; simpl; lia).
  assert (Hn : 1000 <= 1003) by (unfold Qle; simpl; lia).
  split; [split; assumption |].
  apply (C10_allowance_within_bounds (1 # 2) 1000 3%Z STATUS_SHORT_BLOCK 1003 Hb Hn).
Defined.

(** ** The replenished allowance by cases *)

Lemma _A2_replenish_uncapped (allowance last now : Q) :
  allowance + (now - last) * _A2_ALLOWANCE <= _A2_REQUESTS →
  _A2_replenish allowance last now = allowance + (now - last) * _A2_ALLOWANCE.
Proof.
  intros H. unfold _A2_replenish.
  destruct (Qgtb (allowance + (now - last) * _A2_ALLOWANCE) _A2_REQUESTS) eqn:G.
  - apply Qgtb_true in G. lra.
  - reflexivity.
Qed.

Lemma _A2_replenish_capped (allowance last now : Q) :
  _A2_REQUESTS <= allowance + (now - last) * _A2_ALLOWANCE →
  _A2_replenish allowance last now == _A2_REQUESTS.
Proof.
  intros H. unfold _A2_replenish.
  destruct (Qgtb (allowance + (now - last) * _A2_ALLOWANCE) _A2_REQUESTS) eqn:G.
  - reflexivity.
  - unfold Qgtb in G. apply negb_false_iff, Qle_bool_iff in G. lra.
Qed.

(** ** A burst under algorithm 2 *)

(** C2 fails on the code.  A client without a record makes ten requests at
    clock 1700000000, an eleventh at the same clock and a twelfth one second
    later, under algorithm 2.  Every one of the twelve checks reads the
    store, finds no record, starts from the initial fields (allowance
    [_A2_ALLOWANCE] = 2.0, last 0), computes Allowed and ends in NameError
    at the statement that would store the record: none returns Allowed, the
    eleventh does not even compute ShortBlocked, and the store never holds
    a record for the client. *)
Theorem C2_token_bucket_burst_raises :
  _A2_initial = (_A2_ALLOWANCE, 0, 0%Z, STATUS_NO_BLOCK)
  ∧ _A2_ALLOWANCE == 2
  ∧ run_checks _ALGORITHM_ID_A2 (burst_requests "10.0.0.7" 1700000000)
      (limiter_over ∅) =
    (repeat (Raise (NameError "name 'rate' is not defined")) 12,
     mkLimiter (mkDatabase ∅ (repeat (StoreGet "10.0.0.7") 12)))
  ∧ _A2_evaluate _A2_ALLOWANCE 0 0%Z STATUS_NO_BLOCK 1700000000 =
    (_A2_REQUESTS - 1, 0%Z, STATUS_NO_BLOCK, _A2_EXPIRATION).
Proof.
  split; [reflexivity |]. split; [reflexivity |]. split.
  - vm_compute. reflexivity.
  - reflexivity.
Qed.

(** ** The defects, evaluated *)

(** C1 fails on the code.  A client short-blocked at clock 1000 with rate
    4.5 comes back at clock 1100: the new rate, 5.5 / 101, is below the
    maximum rate 4.0, yet the status the method computes is still
    ShortBlocked (status is assigned only when the maximum is reached), and
    the check itself ends in AttributeError at the store write, after its
    read; it does not return Allowed. *)
Theorem C1_short_block_survives_low_rate :
  _A1_new_rate (9 # 2) 1000 1100 < _A1_MAXIMUM_RATE
  ∧ _A1_evaluate (9 # 2) 1000 1%Z STATUS_SHORT_BLOCK 1100 =
    Return (_A1_new_rate (9 # 2) 1000 1100, 1%Z, STATUS_SHORT_BLOCK,
            _A1_EXPIRATION)
  ∧ incrementRate _A1_ALGORITHM_ID (Some "10.0.0.7") 1100
      (limiter_over short_blocked_store) =
    (Raise (AttributeError "'Limiter' object has no attribute 'clientIdentifier'"),
     mkLimiter (mkDatabase short_blocked_store [StoreGet "10.0.0.7"])).
Proof.
  assert (Hlt : _A1_new_rate (9 # 2) 1000 1100 < _A1_MAXIMUM_RATE)
    by (vm_compute; reflexivity).
  split; [exact Hlt |]. split.
  - rewrite _A1_evaluate_below; [reflexivity | | exact Hlt].
    intros H. vm_compute in H. discriminate H.
  - vm_compute. reflexivity.
Qed.

(** C4 fails on the code.  First check of a client at clock 100 under
    algorithm 2: the allowance computed is capacity - 1, but the tuple built
    for the store names [rate], which is not defined, so the check ends in
    NameError and the store, read once, holds no record for the client. *)
Theorem C4_tuple_names_rate_not_allowance :
  _A2_evaluate _A2_ALLOWANCE 0 0%Z STATUS_NO_BLOCK 100 =
    (_A2_REQUESTS - 1, 0%Z, STATUS_NO_BLOCK, _A2_EXPIRATION)
  ∧ (let '(outcome, self') :=
       incrementRate _ALGORITHM_ID_A2 (Some "10.0.0.7") 100 (limiter_over ∅) in
     outcome = Raise (NameError "name 'rate' is not defined")
     ∧ calls (_database self') = [StoreGet "10.0.0.7"]
     ∧ entries (_database self') !! "10.0.0.7" = None).
Proof.
  split.
  - reflexivity.
  - vm_compute. repeat split.
Qed.

(** C5 fails on the code.  A check of a client without a record at clock
    100 reads the store once and never writes: under algorithm 1 the key
    expression [self.clientIdentifier] raises AttributeError, under
    algorithm 2 the value expression raises NameError. *)
Theorem C5_one_read_no_write :
  (let '(outcome, self') :=
     incrementRate _A1_ALGORITHM_ID (Some "10.0.0.7") 100 (limiter_over ∅) in
   outcome = Raise (AttributeError "'Limiter' object has no attribute 'clientIdentifier'")
   ∧ reads (_database self') = 1%nat ∧ writes (_database self') = 0%nat)
  ∧ (let '(outcome, self') :=
       incrementRate _ALGORITHM_ID_A2 (Some "10.0.0.7") 100 (limiter_over ∅) in
     outcome = Raise (NameError "name 'rate' is not defined")
     ∧ reads (_database self') = 1%nat ∧ writes (_database self') = 0%nat).
Proof.
  split; vm_compute; repeat split.
Qed.

(** What a check of a never-seen client does, at any clock: algorithm 1
    raises (ZeroDivisionError when the clock reads -1, AttributeError
    otherwise), algorithm 2 raises NameError. *)
Lemma never_seen_check_raises (key : string) (now : Q) (self : Limiter) :
  key ≠ "" →
  entries (_database self) !! key = None →
  (∃ e, (incrementRate _A1_ALGORITHM_ID (Some key) now self).1 = Raise e)
  ∧ (incrementRate _ALGORITHM_ID_A2 (Some key) now self).1 =
    Raise (NameError "name 'rate' is not defined").
Proof.
  intros Hk Hm. split.
  - rewrite incrementRate_A1_unfold by assumption.
    unfold mbind, Py_bind. rewrite _get_Some by assumption.
    cbn [_database entries]. rewrite Hm. cbn [fmap option_fmap option_map].
    match goal with
    | |- context [_A1_continue ?a ?b ?c ?d ?e ?f ?s] =>
        destruct (_A1_continue_raises a b c d e f s) as (e' & -> & _)
    end.
    exists e'. reflexivity.
  - rewrite incrementRate_A2_unfold by assumption.
    unfold mbind, Py_bind. rewrite _get_Some by assumption.
    cbn [_database entries]. rewrite Hm. cbn [fmap option_fmap option_map].
    rewrite _A2_continue_raises. reflexivity.
Qed.

(** C7 fails on the code.  For a never-seen client at clock 100 both
    algorithms compute the status Allowed, but neither check returns it:
    algorithm 1 ends in AttributeError and algorithm 2 in NameError, at the
    statement that would store the record. *)
Theorem C7_never_seen_client_raises :
  (∃ rate, _A1_evaluate 0 0 0%Z STATUS_NO_BLOCK 100 =
           Return (rate, 0%Z, STATUS_NO_BLOCK, _A1_EXPIRATION))
  ∧ (_A2_evaluate _A2_ALLOWANCE 0 0%Z STATUS_NO_BLOCK 100).1.2 = STATUS_NO_BLOCK
  ∧ (incrementRate _A1_ALGORITHM_ID (Some "10.0.0.7") 100 (limiter_over ∅)).1
    = Raise (AttributeError "'Limiter' object has no attribute 'clientIdentifier'")
  ∧ (incrementRate _ALGORITHM_ID_A2 (Some "10.0.0.7") 100 (limiter_over ∅)).1
    = Raise (NameError "name 'rate' is not defined")
  ∧ (incrementRate _A1_ALGORITHM_ID (Some "10.0.0.7") 100 (limiter_over ∅)).1
    ≠ Return STATUS_NO_BLOCK
  ∧ (incrementRate _ALGORITHM_ID_A2 (Some "10.0.0.7") 100 (limiter_over ∅)).1
    ≠ Return STATUS_NO_BLOCK.
Proof.
  split; [eexists; reflexivity |].
  repeat split; vm_compute; try reflexivity; discriminate.
Qed.

(** ** Further properties of the accessors *)

(** X1.  [_get] and [_set] called with a key that is [None] or empty raise
    ValueError('Missing or invalid key') and leave the limiter, hence the
    store and its record of calls, untouched. *)
Theorem accessors_reject_invalid_key (key : PyStr) (value : Data)
    (expiration : Z) (self : Limiter) :
  key = None ∨ key = Some "" →
  _get key self = (Raise (ValueError "Missing or invalid key"), self)
  ∧ _set key value expiration self =
    (Raise (ValueError "Missing or invalid key"), self).
Proof.
  intros [-> | ->]; split; reflexivity.
Qed.

Lemma accessors_reject_invalid_key_witness :
  _get (Some "") (limiter_over short_blocked_store) =
    (Raise (ValueError "Missing or invalid key"),
     limiter_over short_blocked_store)
  ∧ _set (Some "") (1, 2, 3%Z, STATUS_NO_BLOCK) 3600%Z
      (limiter_over short_blocked_store) =
    (Raise (ValueError "Missing or invalid key"),
     limiter_over short_blocked_store).
Proof.
  apply (accessors_reject_invalid_key (Some "") (1, 2, 3%Z, STATUS_NO_BLOCK)
           3600%Z (limiter_over short_blocked_store)).
  right. reflexivity.
Defined.

(** ** Further properties of the entry point *)

(** X3.  With a selector that is none of the three algorithm ids and a
    non-empty identifier, [incrementRate] raises ValueError('No algorithm
    was selected') and leaves the limiter untouched. *)
Theorem unknown_algorithm_raises (algorithm : Z) (key : string) (now : Q)
    (self : Limiter) :
  key ≠ "" →
  algorithm ≠ _A1_ALGORITHM_ID → algorithm ≠ _ALGORITHM_ID_A2 →
  algorithm ≠ _A3_ALGORITHM_ID →
  incrementRate algorithm (Some key) now self =
  (Raise (ValueError "No algorithm was selected"), self).
Proof.
  intros Hk H1 H2 H3. unfold incrementRate.
  rewrite truthy_Some by assumption.
  apply Z.eqb_neq in H1, H2, H3. rewrite H1, H2, H3. reflexivity.
Qed.

Lemma unknown_algorithm_raises_witness :
  incrementRate 0 (Some "10.0.0.7") 100 (limiter_over short_blocked_store) =
  (Raise (ValueError "No algorithm was selected"),
   limiter_over short_blocked_store).
Proof.
  apply (unknown_algorithm_raises 0 "10.0.0.7" 100
           (limiter_over short_blocked_store)); discriminate.
Defined.

(** The calls one check adds to the store's record: a read of the
    identifier when it is valid and the selector routes to algorithm 1 or 2,
    nothing otherwise; the entries stay. *)
Lemma incrementRate_calls (algorithm : Z) (clientIdentifier : PyStr)
    (now : Q) (self : Limiter) :
  let self' := (incrementRate algorithm clientIdentifier now self).2 in
  entries (_database self') = entries (_database self)
  ∧ calls (_database self') =
    calls (_database self)
      ++ (if uses_store algorithm
          then map StoreGet (valid_keys [(clientIdentifier, now)]) else []).
Proof.
  destruct self as [[m cs]].
  assert (Hv : valid_keys [(clientIdentifier, now)] =
               if truthy clientIdentifier
               then match clientIdentifier with Some k => [k] | None => [] end
               else []).
  { unfold valid_keys. cbn. destruct (truthy clientIdentifier) eqn:Ht.
    - destruct clientIdentifier; [reflexivity | discriminate].
    - reflexivity. }
  rewrite Hv. clear Hv.
  unfold uses_store, incrementRate.
  destruct (truthy clientIdentifier) eqn:Ht; cbn [negb].
  - apply truthy_true in Ht as (key & -> & Hk). cbn [map].
    destruct (algorithm =? _A1_ALGORITHM_ID)%Z; cbn [orb].
    { unfold _A1_incrementRate, mbind, Py_bind.
      rewrite _get_Some by assumption. cbn [_database entries calls].
      destruct (m !! key) as [[[[[rate last] excesses] status] ttl]|];
        cbn [fmap option_fmap option_map fst].
      - destruct (bool_decide (status = STATUS_EXTENDED_BLOCK)).
        + split; reflexivity.
        + match goal with
          | |- context [_A1_continue ?a ?b ?c ?d ?e ?f ?s] =>
              destruct (_A1_continue_raises a b c d e f s) as (e' & -> & _)
          end. split; reflexivity.
      - cbn [_A1_initial].
        match goal with
        | |- context [_A1_continue ?a ?b ?c ?d ?e ?f ?s] =>
            destruct (_A1_continue_raises a b c d e f s) as (e' & -> & _)
        end. split; reflexivity. }
    destruct (algorithm =? _ALGORITHM_ID_A2)%Z; cbn [orb].
    { unfold _A2_incrementRate, mbind, Py_bind.
      rewrite _get_Some by assumption. cbn [_database entries calls].
      destruct (m !! key) as [[[[[allowance last] excesses] status] ttl]|];
        cbn [fmap option_fmap option_map fst].
      - destruct (bool_decide (status = STATUS_EXTENDED_BLOCK)).
        + split; reflexivity.
        + rewrite _A2_continue_raises. split; reflexivity.
      - cbn [_A2_initial]. rewrite _A2_continue_raises. split; reflexivity. }
    rewrite app_nil_r.
    destruct (algorithm =? _A3_ALGORITHM_ID)%Z; split; reflexivity.
  - cbn [map]. split; [reflexivity |].
    destruct (_ || _); rewrite app_nil_r; reflexivity.
Qed.

Lemma valid_keys_cons (r : PyStr * Q) (requests : list (PyStr * Q)) :
  valid_keys (r :: requests) = valid_keys [r] ++ valid_keys requests.
Proof.
  unfold valid_keys. cbn.
  destruct (truthy r.1); [destruct r.1 |]; reflexivity.
Qed.

(** X5.  Whatever the selector, the identifiers and the clock readings, a
    sequence of checks leaves the entries of the store as they were and
    gives one outcome per request; the calls the store sees are, under
    algorithm 1 or 2, one read per request with a valid identifier, keyed by
    that identifier and in request order, and none under any other
    selector.  No check writes. *)
Theorem checks_only_read (algorithm : Z) (requests : list (PyStr * Q))
    (self : Limiter) :
  let result := run_checks algorithm requests self in
  length result.1 = length requests
  ∧ entries (_database result.2) = entries (_database self)
  ∧ calls (_database result.2) =
    calls (_database self)
      ++ (if uses_store algorithm then map StoreGet (valid_keys requests)
          else []).
Proof.
  revert self. induction requests as [| [clientIdentifier now] rest IH];
    intros self; cbn [run_checks].
  - cbn. repeat split; [].
    destruct (uses_store algorithm); rewrite app_nil_r; reflexivity.
  - pose proof (incrementRate_calls algorithm clientIdentifier now self)
      as (He & Hc).
    destruct (incrementRate algorithm clientIdentifier now self) as [o self'].
    cbn [snd] in He, Hc.
    specialize (IH self'). cbv zeta in IH.
    destruct (run_checks algorithm rest self') as [os self''].
    cbn [fst snd length] in *.
    destruct IH as (Hl & He' & Hc').
    split; [congruence |]. split; [congruence |].
    rewrite valid_keys_cons, Hc', Hc, <- app_assoc.
    destruct (uses_store algorithm).
    + rewrite map_app. reflexivity.
    + reflexivity.
Qed.

(** X4.  Under algorithm 1 or 2 a check with a valid identifier returns a
    status exactly when the store holds an extended-blocked record for the
    client, and the status is then ExtendedBlocked; in every other case the
    check ends in an exception. *)
Theorem check_returns_only_extended_block (algorithm : Z) (key : string)
    (now : Q) (self : Limiter) (status : Status) :
  algorithm = _A1_ALGORITHM_ID ∨ algorithm = _ALGORITHM_ID_A2 →
  key ≠ "" →
  (incrementRate algorithm (Some key) now self).1 = Return status
  ↔ status = STATUS_EXTENDED_BLOCK
    ∧ ∃ (first last : Q) (excesses ttl : Z),
        entries (_database self) !! key
        = Some ((first, last, excesses, STATUS_EXTENDED_BLOCK), ttl).
Proof.
  intros Halg Hk. destruct self as [[m cs]]. cbn [_database entries].
  split.
  - intros Hret.
    destruct (m !! key) as [[[[[first last] excesses] status'] ttl]|] eqn:Hm.
    + destruct (decide (status' = STATUS_EXTENDED_BLOCK)) as [-> | Hne].
      * rewrite (extended_block_check algorithm key Halg Hk m cs first last
                   excesses ttl now Hm) in Hret.
        cbn [fst] in Hret. injection Hret as <-.
        split; [reflexivity | eauto].
      * exfalso. destruct Halg as [-> | ->].
        -- rewrite incrementRate_A1_unfold in Hret by assumption.
           unfold mbind, Py_bind in Hret.
           rewrite _get_Some in Hret by assumption.
           cbn [_database entries] in Hret. rewrite Hm in Hret.
           cbn [fmap option_fmap option_map fst] in Hret.
           rewrite bool_decide_eq_false_2 in Hret by assumption.
           match type of Hret with
           | context [_A1_continue ?a ?b ?c ?d ?e ?f ?s] =>
               destruct (_A1_continue_raises a b c d e f s) as (e' & He' & _)
           end.
           rewrite He' in Hret. discriminate Hret.
        -- rewrite incrementRate_A2_unfold in Hret by assumption.
           unfold mbind, Py_bind in Hret.
           rewrite _get_Some in Hret by assumption.
           cbn [_database entries] in Hret. rewrite Hm in Hret.
           cbn [fmap option_fmap option_map fst] in Hret.
           rewrite bool_decide_eq_false_2 in Hret by assumption.
           rewrite _A2_continue_raises in Hret. discriminate Hret.
    + exfalso.
      destruct (never_seen_check_raises key now (mkLimiter (mkDatabase m cs))
                  Hk Hm) as ((e & H1) & H2).
      destruct Halg as [-> | ->]; congruence.
  - intros (-> & first & last & excesses & ttl & Hm).
    rewrite (extended_block_check algorithm key Halg Hk m cs first last
               excesses ttl now Hm).
    reflexivity.
Qed.

Lemma check_returns_only_extended_block_witness :
  (incrementRate _ALGORITHM_ID_A2 (Some "10.0.0.7") 100
     (limiter_over extended_blocked_store)).1 = Return STATUS_EXTENDED_BLOCK.
Proof.
  apply (check_returns_only_extended_block _ALGORITHM_ID_A2 "10.0.0.7" 100
           (limiter_over extended_blocked_store) STATUS_EXTENDED_BLOCK).
  - right. reflexivity.
  - discriminate.
  - split; [reflexivity |]. exists 5, 1000, 31%Z, 21600%Z. reflexivity.
Defined.

(** X6.  Algorithm 1 divides by (now - last) + 1.  When the clock reads
    exactly one second less than the [last] of the client's stored record
    (which is not extended-blocked), the check raises ZeroDivisionError
    after its read; the store's entries are unchanged. *)
Theorem A1_zero_divisor_raises (key : string) (self : Limiter)
    (rate last : Q) (excesses ttl : Z) (status : Status) (now : Q) :
  key ≠ "" →
  entries (_database self) !! key = Some ((rate, last, excesses, status), ttl) →
  status ≠ STATUS_EXTENDED_BLOCK →
  (now - last) + 1 == 0 →
  incrementRate _A1_ALGORITHM_ID (Some key) now self =
  (Raise (ZeroDivisionError "float division by zero"),
   mkLimiter (mkDatabase (entries (_database self))
                         (calls (_database self) ++ [StoreGet key]))).
Proof.
  intros Hk Hm Hs Hz.
  rewrite incrementRate_A1_unfold by assumption.
  unfold mbind, Py_bind. rewrite _get_Some by assumption.
  cbn [_database entries]. rewrite Hm.
  cbn [fmap option_fmap option_map fst].
  rewrite bool_decide_eq_false_2 by assumption.
  unfold _A1_continue, _A1_evaluate, mbind, Py_bind, eval.
  apply Qeq_eq_bool in Hz. rewrite Hz. reflexivity.
Qed.

Lemma A1_zero_divisor_raises_witness :
  (incrementRate _A1_ALGORITHM_ID (Some "10.0.0.7") 999
     (limiter_over short_blocked_store)).1 =
  Raise (ZeroDivisionError "float division by zero").
Proof.
  rewrite (A1_zero_divisor_raises "10.0.0.7" (limiter_over short_blocked_store)
             (9 # 2) 1000 1%Z 3600%Z STATUS_SHORT_BLOCK 999);
    [reflexivity | discriminate | reflexivity | discriminate | reflexivity].
Defined.

(** ** Further properties of algorithm 1 *)

(** X7.  Algorithm 1, whenever its divisor is not zero: the status it
    computes is Allowed exactly when the prior status is Allowed and the new
    rate is below the maximum rate, and ExtendedBlocked exactly when the new
    rate reaches the maximum with more than [_A1_MAXIMUM_EXCESSES] excesses
    counted (or the prior status was ExtendedBlocked and the rate is
    below).  A prior ShortBlocked is never turned into Allowed. *)
Theorem A1_status_characterised (rate last : Q) (excesses : Z)
    (status : Status) (now : Q) :
  ¬ (now - last) + 1 == 0 →
  ∃ (excesses' : Z) (status' : Status) (expiration : Z),
    _A1_evaluate rate last excesses status now =
    Return (_A1_new_rate rate last now, excesses', status', expiration)
    ∧ (status' = STATUS_NO_BLOCK
       ↔ status = STATUS_NO_BLOCK
         ∧ _A1_new_rate rate last now < _A1_MAXIMUM_RATE)
    ∧ (status' = STATUS_EXTENDED_BLOCK
       ↔ (_A1_MAXIMUM_RATE <= _A1_new_rate rate last now
          ∧ (excesses' > _A1_MAXIMUM_EXCESSES)%Z)
         ∨ (_A1_new_rate rate last now < _A1_MAXIMUM_RATE
            ∧ status = STATUS_EXTENDED_BLOCK)).
Proof.
  intros Hd.
  destruct (Qlt_le_dec (_A1_new_rate rate last now) _A1_MAXIMUM_RATE)
    as [Hlt | Hge].
  - rewrite (_A1_evaluate_below rate last excesses status now Hd Hlt).
    do 3 eexists. split; [reflexivity |]. split.
    + tauto.
    + split.
      * intros ->. right. tauto.
      * intros [[H _] | [_ H]]; [lra | exact H].
  - pose proof (_A1_evaluate_above rate last excesses status now Hd Hge) as E.
    cbv zeta in E. rewrite E. clear E.
    do 3 eexists. split; [reflexivity |].
    destruct ((if bool_decide (status = STATUS_NO_BLOCK)
               then (excesses + 1)%Z else excesses) >? _A1_MAXIMUM_EXCESSES)%Z
      eqn:G.
    + split.
      * split; [discriminate | intros [_ H]; lra].
      * split; [| reflexivity]. intros _. left. split; [assumption | lia].
    + split.
      * split; [discriminate | intros [_ H]; lra].
      * split; [discriminate |].
        intros [[_ H] | [H _]]; [lia | lra].
Qed.

Lemma A1_status_characterised_witness :
  ∃ (excesses' : Z) (status' : Status) (expiration : Z),
    _A1_evaluate 3 1000 30%Z STATUS_NO_BLOCK 1000 =
    Return (_A1_new_rate 3 1000 1000, excesses', status', expiration)
    ∧ (status' = STATUS_NO_BLOCK
       ↔ STATUS_NO_BLOCK = STATUS_NO_BLOCK
         ∧ _A1_new_rate 3 1000 1000 < _A1_MAXIMUM_RATE)
    ∧ (status' = STATUS_EXTENDED_BLOCK
       ↔ (_A1_MAXIMUM_RATE <= _A1_new_rate 3 1000 1000
          ∧ (excesses' > _A1_MAXIMUM_EXCESSES)%Z)
         ∨ (_A1_new_rate 3 1000 1000 < _A1_MAXIMUM_RATE
            ∧ STATUS_NO_BLOCK = STATUS_EXTENDED_BLOCK)).
Proof.
  apply (A1_status_characterised 3 1000 30%Z STATUS_NO_BLOCK 1000).
  intros H. vm_compute in H. discriminate H.
Defined.

(** X8.  Algorithm 1 on a client without a record, at any clock reading
    that is not negative: the rate computed is 1 / (now + 1), between 0 and
    1, so below the maximum rate; the status computed is Allowed, no excess
    is counted and the expiration is the normal one. *)
Theorem A1_first_check_evaluates_allowed (now : Q) :
  0 <= now →
  (let '(rate, last, excesses, status) := _A1_initial in
   _A1_evaluate rate last excesses status now) =
    Return (_A1_new_rate 0 0 now, 0%Z, STATUS_NO_BLOCK, _A1_EXPIRATION)
  ∧ _A1_new_rate 0 0 now == 1 / (now + 1)
  ∧ 0 < _A1_new_rate 0 0 now <= 1.
Proof.
  intros Hnow. cbn [_A1_initial].
  assert (Hpos : 0 < now - 0 + 1) by lra.
  assert (Hr : _A1_new_rate 0 0 now == 1 / (now + 1)).
  { unfold _A1_new_rate. field. lra. }
  assert (Hb : 0 < _A1_new_rate 0 0 now <= 1).
  { unfold _A1_new_rate. split.
    - apply Qlt_shift_div_l; lra.
    - apply Qle_shift_div_r; lra. }
  split; [| split; assumption].
  rewrite _A1_evaluate_below; [reflexivity | lra |].
  unfold _A1_MAXIMUM_RATE. lra.
Qed.

Lemma A1_first_check_evaluates_allowed_witness :
  0 <= 1700000000 ∧ 0 < _A1_new_rate 0 0 1700000000 <= 1.
Proof.
  assert (H : 0 <= 1700000000) by (unfold Qle; simpl; lia).
  split; [exact H |].
  destruct (A1_first_check_evaluates_allowed 1700000000 H) as (_ & _ & Hb).
  exact Hb.
Defined.

(** X9.  The rate of algorithm 1 grows with requests and decays with time:
    a request at the very instant of the previous one raises a rate by
    exactly 1, and for a prior rate that is not negative and a clock not
    before [last], reading the clock later never gives a higher rate, so a
    check that is below the maximum rate stays below it when made later. *)
Theorem A1_rate_grows_and_decays (rate last now now' : Q) :
  0 <= rate → last <= now → now <= now' →
  _A1_new_rate rate last last == 1 + rate
  ∧ _A1_new_rate rate last now' <= _A1_new_rate rate last now
  ∧ _A1_new_rate rate last now <= 1 + rate
  ∧ (_A1_new_rate rate last now < _A1_MAXIMUM_RATE →
     _A1_new_rate rate last now' < _A1_MAXIMUM_RATE).
Proof.
  intros Hr Hl Hn. unfold _A1_new_rate.
  assert (Hmono : (1 + rate) / (now' - last + 1) <= (1 + rate) / (now - last + 1)).
  { apply Qle_shift_div_l; [lra |].
    assert (E : (1 + rate) / (now' - last + 1) * (now - last + 1)
                == (1 + rate) * ((now - last + 1) / (now' - last + 1)))
      by (field; lra).
    rewrite E.
    assert ((now - last + 1) / (now' - last + 1) <= 1)
      by (apply Qle_shift_div_r; lra).
    nra. }
  split; [field; lra |]. split; [exact Hmono |]. split.
  - apply Qle_shift_div_r; [lra | nra].
  - intros H. lra.
Qed.

Lemma A1_rate_grows_and_decays_witness :
  (0 <= 9 # 2 ∧ 1000 <= 1000 ∧ 1000 <= 1001)
  ∧ _A1_new_rate (9 # 2) 1000 1001 <= _A1_new_rate (9 # 2) 1000 1000.
Proof.
  assert (H1 : 0 <= 9 # 2) by (unfold Qle; simpl; lia).
  assert (H2 : 1000 <= 1000) by (unfold Qle; simpl; lia).
  assert (H3 : 1000 <= 1001) by (unfold Qle; simpl; lia).
  split; [repeat split; assumption |].
  destruct (A1_rate_grows_and_decays (9 # 2) 1000 1000 1001 H1 H2 H3)
    as (_ & H & _).
  exact H.
Defined.

(** ** Further properties of algorithm 2 *)

(** X11.  Both algorithms choose the expiration by the status they have
    just computed: 21600 seconds when it is ExtendedBlocked, 3600 seconds
    otherwise; algorithm 1 computes one unless its divisor is zero. *)
Theorem expiration_follows_status (first last : Q) (excesses : Z)
    (status : Status) (now : Q) :
  match _A1_evaluate first last excesses status now with
  | Return (_, _, status', expiration) =>
      expiration =
      (if bool_decide (status' = STATUS_EXTENDED_BLOCK) then 21600 else 3600)%Z
  | Raise _ => (now - last) + 1 == 0
  end
  ∧ (let '(_, _, status', expiration) :=
       _A2_evaluate first last excesses status now in
     expiration =
     (if bool_decide (status' = STATUS_EXTENDED_BLOCK) then 21600 else 3600)%Z).
Proof.
  split.
  - unfold _A1_evaluate.
    destruct (Qeq_bool (now - last + 1) 0) eqn:Hd.
    + apply Qeq_bool_eq in Hd. exact Hd.
    + destruct (Qgeb _ _);
        [destruct (bool_decide (status = STATUS_NO_BLOCK)); cbn;
         match goal with
         | |- context [(?e >? ?m)%Z] => destruct (e >? m)%Z
         end |];
        cbn; reflexivity.
  - unfold _A2_evaluate.
    destruct (Qltb _ _);
      [destruct (bool_decide (status = STATUS_NO_BLOCK)); cbn;
       match goal with
       | |- context [(?e >? ?m)%Z] => destruct (e >? m)%Z
       end |];
      cbn; reflexivity.
Qed.

(** X12.  Algorithm 2 decides by the replenished allowance alone: the
    status computed is Allowed exactly when at least 1.0 is available,
    whatever the prior status; below 1.0 it is ExtendedBlocked when the
    excess count computed exceeds [_A2_MAXIMUM_EXCESSES] and ShortBlocked
    otherwise. *)
Theorem A2_status_characterised (allowance last : Q) (excesses : Z)
    (status : Status) (now : Q) :
  let '(_, excesses', status', _) :=
    _A2_evaluate allowance last excesses status now in
  (status' = STATUS_NO_BLOCK ↔ 1 <= _A2_replenish allowance last now)
  ∧ (status' = STATUS_EXTENDED_BLOCK
     ↔ _A2_replenish allowance last now < 1
       ∧ (excesses' > _A2_MAXIMUM_EXCESSES)%Z)
  ∧ (status' = STATUS_SHORT_BLOCK
     ↔ _A2_replenish allowance last now < 1
       ∧ (excesses' <= _A2_MAXIMUM_EXCESSES)%Z).
Proof.
  destruct (Qlt_le_dec (_A2_replenish allowance last now) 1) as [Hlt | Hge].
  - pose proof (_A2_evaluate_exceed allowance last excesses status now Hlt) as E.
    cbv zeta in E. rewrite E. clear E.
    destruct ((if bool_decide (status = STATUS_NO_BLOCK)
               then (excesses + 1)%Z else excesses) >? _A2_MAXIMUM_EXCESSES)%Z
      eqn:G.
    + repeat split; try discriminate; try assumption; intros; try lia; lra.
    + repeat split; try discriminate; try assumption; intros; try lia; try lra.
  - rewrite (_A2_evaluate_spend allowance last excesses status now Hge).
    repeat split; try discriminate; try (intros _; assumption);
      intros [H _]; lra.
Qed.

(** X13.  Algorithm 2 after a full period: when at least [_A2_PERIOD]
    seconds have passed since [last] and the prior allowance is not
    negative, the allowance is refilled to the capacity, so the status
    computed is Allowed whatever the prior status, one unit is spent and the
    excess count is kept. *)
Theorem A2_full_period_restores (allowance last : Q) (excesses : Z)
    (status : Status) (now : Q) :
  0 <= allowance → last + _A2_PERIOD <= now →
  ∃ allowance' : Q,
    _A2_evaluate allowance last excesses status now =
    (allowance', excesses, STATUS_NO_BLOCK, _A2_EXPIRATION)
    ∧ allowance' == _A2_REQUESTS - 1.
Proof.
  intros Ha Hp.
  assert (H2 : _A2_ALLOWANCE == 2) by reflexivity.
  assert (Hfull : _A2_replenish allowance last now == _A2_REQUESTS).
  { apply _A2_replenish_capped. rewrite H2.
    unfold _A2_REQUESTS, _A2_PERIOD in *. lra. }
  assert (Hone : 1 <= _A2_replenish allowance last now)
    by (rewrite Hfull; unfold _A2_REQUESTS; lra).
  exists (_A2_replenish allowance last now - 1). split.
  - apply _A2_evaluate_spend. exact Hone.
  - rewrite Hfull. reflexivity.
Qed.

Lemma A2_full_period_restores_witness :
  (0 <= 0 ∧ 1000 + _A2_PERIOD <= 1005)
  ∧ ∃ allowance' : Q,
      _A2_evaluate 0 1000 7%Z STATUS_SHORT_BLOCK 1005 =
      (allowance', 7%Z, STATUS_NO_BLOCK, _A2_EXPIRATION)
      ∧ allowance' == _A2_REQUESTS - 1.
Proof.
  assert (H1 : 0 <= 0) by (unfold Qle; simpl; lia).
  assert (H2 : 1000 + _A2_PERIOD <= 1005) by (unfold Qle; simpl; lia).
  split; [split; assumption |].
  apply (A2_full_period_restores 0 1000 7%Z STATUS_SHORT_BLOCK 1005 H1 H2).
Defined.

(** X14.  Under algorithm 2 waiting never hurts: from the same stored
    fields, a later clock reading gives a replenished allowance that is not
    smaller, so a check that computes Allowed at one instant computes
    Allowed at every later one. *)
Theorem A2_waiting_never_hurts (allowance last : Q) (excesses : Z)
    (status : Status) (now now' : Q) :
  now <= now' →
  _A2_replenish allowance last now <= _A2_replenish allowance last now'
  ∧ ((_A2_evaluate allowance last excesses status now).1.2 = STATUS_NO_BLOCK →
     (_A2_evaluate allowance last excesses status now').1.2 = STATUS_NO_BLOCK).
Proof.
  intros Hn.
  assert (H2 : _A2_ALLOWANCE == 2) by reflexivity.
  assert (Hmono : _A2_replenish allowance last now
                  <= _A2_replenish allowance last now').
  { unfold _A2_replenish.
    destruct (Qgtb (allowance + (now - last) * _A2_ALLOWANCE) _A2_REQUESTS) eqn:G;
      destruct (Qgtb (allowance + (now' - last) * _A2_ALLOWANCE) _A2_REQUESTS) eqn:G'.
    - lra.
    - apply Qgtb_true in G. unfold Qgtb in G'.
      apply negb_false_iff, Qle_bool_iff in G'. rewrite H2 in *. lra.
    - unfold Qgtb in G. apply negb_false_iff, Qle_bool_iff in G. exact G.
    - rewrite H2. lra. }
  split; [exact Hmono |].
  intros Hs.
  destruct (Qlt_le_dec (_A2_replenish allowance last now) 1) as [Hlt | Hge].
  - exfalso.
    pose proof (_A2_evaluate_exceed allowance last excesses status now Hlt) as E.
    cbv zeta in E. rewrite E in Hs. cbn [fst snd] in Hs.
    destruct (_ >? _)%Z; discriminate Hs.
  - rewrite _A2_evaluate_spend by lra. reflexivity.
Qed.

Lemma A2_waiting_never_hurts_witness :
  1000 <= 1001
  ∧ _A2_replenish 0 1000 1000 <= _A2_replenish 0 1000 1001.
Proof.
  assert (H : 1000 <= 1001) by (unfold Qle; simpl; lia).
  split; [exact H |].
  destruct (A2_waiting_never_hurts 0 1000 0%Z STATUS_NO_BLOCK 1000 1001 H)
    as [Hm _].
  exact Hm.
Defined.

(** ** Clocks that run backwards, and first checks under algorithm 2 *)

(** X21.  Algorithm 1 with a clock more than one second behind [last]: the
    divisor is negative, so for a prior rate that is not negative the new
    rate is negative; it is below the maximum rate, no excess is counted
    and the prior status is kept. *)
Theorem A1_clock_backwards (rate last : Q) (excesses : Z) (status : Status)
    (now : Q) :
  0 <= rate → (now - last) + 1 < 0 →
  _A1_evaluate rate last excesses status now =
    Return (_A1_new_rate rate last now, excesses, status,
            if bool_decide (status = STATUS_EXTENDED_BLOCK)
            then _A1_EXTENDED_BLOCK_EXPIRATION else _A1_EXPIRATION)
  ∧ _A1_new_rate rate last now < 0.
Proof.
  intros Hr Hd.
  assert (Hneg : _A1_new_rate rate last now < 0).
  { unfold _A1_new_rate.
    assert (E : (1 + rate) / (now - last + 1)
                == - ((1 + rate) / (- (now - last + 1)))) by (field; lra).
    rewrite E.
    assert (0 < (1 + rate) / (- (now - last + 1)))
      by (apply Qlt_shift_div_l; lra).
    lra. }
  split; [| exact Hneg].
  apply _A1_evaluate_below; [lra |]. unfold _A1_MAXIMUM_RATE. lra.
Qed.

Lemma A1_clock_backwards_witness :
  (0 <= 50 ∧ (990 - 1000) + 1 < 0)
  ∧ _A1_new_rate 50 1000 990 < 0.
Proof.
  assert (H1 : 0 <= 50) by (unfold Qle; simpl; lia).
  assert (H2 : (990 - 1000) + 1 < 0) by (unfold Qlt; simpl; lia).
  split; [split; assumption |].
  destruct (A1_clock_backwards 50 1000 0%Z STATUS_NO_BLOCK 990 H1 H2)
    as [_ H].
  exact H.
Defined.

(** X20.  Algorithm 2 with a clock behind [last]: the elapsed time is
    credited as it is, negative, and nothing bounds the allowance from
    below.  When allowance + (now - last) * [_A2_ALLOWANCE] is negative,
    that negative value is the allowance computed, and the status computed
    is a blocked one. *)
Theorem A2_clock_backwards (allowance last : Q) (excesses : Z)
    (status : Status) (now : Q) :
  allowance + (now - last) * _A2_ALLOWANCE < 0 →
  let '(allowance', _, status', _) :=
    _A2_evaluate allowance last excesses status now in
  allowance' = allowance + (now - last) * _A2_ALLOWANCE
  ∧ allowance' < 0
  ∧ status' ≠ STATUS_NO_BLOCK.
Proof.
  intros Hneg.
  assert (Hr : _A2_replenish allowance last now
               = allowance + (now - last) * _A2_ALLOWANCE).
  { apply _A2_replenish_uncapped. unfold _A2_REQUESTS. lra. }
  assert (Hlt : _A2_replenish allowance last now < 1) by (rewrite Hr; lra).
  pose proof (_A2_evaluate_exceed allowance last excesses status now Hlt) as E.
  cbv zeta in E. rewrite E, Hr.
  repeat split; [exact Hneg |].
  destruct (_ >? _)%Z; discriminate.
Qed.

Lemma A2_clock_backwards_witness :
  3 + (990 - 1000) * _A2_ALLOWANCE < 0
  ∧ let '(allowance', _, status', _) :=
      _A2_evaluate 3 1000 0%Z STATUS_NO_BLOCK 990 in
    allowance' = 3 + (990 - 1000) * _A2_ALLOWANCE
    ∧ allowance' < 0
    ∧ status' ≠ STATUS_NO_BLOCK.
Proof.
  assert (H : 3 + (990 - 1000) * _A2_ALLOWANCE < 0) by (vm_compute; reflexivity).
  split; [exact H |].
  apply (A2_clock_backwards 3 1000 0%Z STATUS_NO_BLOCK 990 H).
Defined.

(** X10.  Algorithm 2 on a client without a record, at any clock reading
    that is not negative: at least the initial 2.0 is available, so the
    status computed is Allowed, no excess is counted, and the allowance left
    is between 1 and capacity - 1; it is capacity - 1 from clock 4 on. *)
Theorem A2_first_check_evaluates_allowed (now : Q) :
  0 <= now →
  ∃ allowance' : Q,
    (let '(allowance, last, excesses, status) := _A2_initial in
     _A2_evaluate allowance last excesses status now) =
    (allowance', 0%Z, STATUS_NO_BLOCK, _A2_EXPIRATION)
    ∧ 1 <= allowance' <= _A2_REQUESTS - 1
    ∧ (4 <= now → allowance' == _A2_REQUESTS - 1).
Proof.
  intros Hnow. cbn [_A2_initial].
  assert (H2 : _A2_ALLOWANCE == 2) by reflexivity.
  pose proof (_A2_replenish_le _A2_ALLOWANCE 0 now) as Hle.
  assert (Hge : 2 <= _A2_replenish _A2_ALLOWANCE 0 now).
  { unfold _A2_replenish. destruct (Qgtb _ _).
    - unfold _A2_REQUESTS. lra.
    - rewrite H2. lra. }
  exists (_A2_replenish _A2_ALLOWANCE 0 now - 1). split; [| split].
  - apply _A2_evaluate_spend. lra.
  - lra.
  - intros H4.
    rewrite _A2_replenish_capped; [reflexivity |].
    rewrite H2. unfold _A2_REQUESTS. lra.
Qed.

Lemma A2_first_check_evaluates_allowed_witness :
  0 <= 1 # 2
  ∧ ∃ allowance' : Q,
      (let '(allowance, last, excesses, status) := _A2_initial in
       _A2_evaluate allowance last excesses status (1 # 2)) =
      (allowance', 0%Z, STATUS_NO_BLOCK, _A2_EXPIRATION)
      ∧ 1 <= allowance' <= _A2_REQUESTS - 1
      ∧ (4 <= 1 # 2 → allowance' == _A2_REQUESTS - 1).
Proof.
  assert (H : 0 <= 1 # 2) by (unfold Qle; simpl; lia).
  split; [exact H |].
  apply (A2_first_check_evaluates_allowed (1 # 2) H).
Defined.

(** ** The outcomes of a check *)

(** The exception algorithm 1 ends in once the fields are unpacked. *)
Lemma _A1_continue_outcome (clientIdentifier : PyStr) (rate last : Q)
    (excesses : Z) (status : Status) (now : Q) (self : Limiter) :
  (_A1_continue clientIdentifier rate last excesses status now self).1
  = Raise (ZeroDivisionError "float division by zero")
  ∨ (_A1_continue clientIdentifier rate last excesses status now self).1
    = Raise (AttributeError "'Limiter' object has no attribute 'clientIdentifier'").
Proof.
  destruct (Qeq_bool (now - last + 1) 0) eqn:Hd.
  - left. unfold _A1_continue, _A1_evaluate, mbind, Py_bind, eval.
    rewrite Hd. reflexivity.
  - right. apply Qeq_bool_neq in Hd.
    destruct (_A1_continue_raises clientIdentifier rate last excesses status
                now self) as (e & -> & He).
    rewrite (He Hd). reflexivity.
Qed.

(** X22.  Whatever the selector, the identifier, the clock and the store,
    a check ends in one of seven ways: it returns Allowed (algorithm 3
    only) or ExtendedBlocked, or it raises one of the two ValueErrors of
    [incrementRate], AttributeError, NameError or ZeroDivisionError.  It
    never returns ShortBlocked, and the ValueError('Missing or invalid key')
    of [_get] and [_set] never surfaces, the identifier having been checked
    first. *)
Theorem check_outcomes (algorithm : Z) (clientIdentifier : PyStr) (now : Q)
    (self : Limiter) :
  let outcome := (incrementRate algorithm clientIdentifier now self).1 in
  In outcome
    [ Return STATUS_NO_BLOCK;
      Return STATUS_EXTENDED_BLOCK;
      Raise (ValueError "Missing or invalid client identifier");
      Raise (ValueError "No algorithm was selected");
      Raise (AttributeError "'Limiter' object has no attribute 'clientIdentifier'");
      Raise (NameError "name 'rate' is not defined");
      Raise (ZeroDivisionError "float division by zero") ]
  ∧ (outcome ≠ Return STATUS_NO_BLOCK ∨ algorithm = _A3_ALGORITHM_ID)
  ∧ outcome ≠ Return STATUS_SHORT_BLOCK
  ∧ outcome ≠ Raise (ValueError "Missing or invalid key").
Proof.
  cbv zeta.
  assert (Hin : In (incrementRate algorithm clientIdentifier now self).1
    [ Return STATUS_NO_BLOCK;
      Return STATUS_EXTENDED_BLOCK;
      Raise (ValueError "Missing or invalid client identifier");
      Raise (ValueError "No algorithm was selected");
      Raise (AttributeError "'Limiter' object has no attribute 'clientIdentifier'");
      Raise (NameError "name 'rate' is not defined");
      Raise (ZeroDivisionError "float division by zero") ]
    ∧ ((incrementRate algorithm clientIdentifier now self).1
         = Return STATUS_NO_BLOCK → algorithm = _A3_ALGORITHM_ID)).
  { destruct self as [[m cs]]. unfold incrementRate.
    destruct (truthy clientIdentifier) eqn:Ht; cbn [negb].
    2: { split; [cbn; tauto | discriminate]. }
    apply truthy_true in Ht as (key & -> & Hk).
    destruct (algorithm =? _A1_ALGORITHM_ID)%Z eqn:E1.
    { unfold _A1_incrementRate, mbind, Py_bind.
      rewrite _get_Some by assumption. cbn [_database entries calls].
      destruct (m !! key) as [[[[[rate last] excesses] status] ttl]|];
        cbn [fmap option_fmap option_map fst _A1_initial].
      - destruct (bool_decide (status = STATUS_EXTENDED_BLOCK)) eqn:Hb.
        + apply bool_decide_eq_true_1 in Hb as ->.
          split; [cbn; tauto | discriminate].
        + match goal with
          | |- context [_A1_continue ?a ?b ?c ?d ?e ?f ?s] =>
              destruct (_A1_continue_outcome a b c d e f s) as [-> | ->]
          end; split; (cbn; tauto) || discriminate.
      - match goal with
        | |- context [_A1_continue ?a ?b ?c ?d ?e ?f ?s] =>
            destruct (_A1_continue_outcome a b c d e f s) as [-> | ->]
        end; split; (cbn; tauto) || discriminate. }
    destruct (algorithm =? _ALGORITHM_ID_A2)%Z eqn:E2.
    { unfold _A2_incrementRate, mbind, Py_bind.
      rewrite _get_Some by assumption. cbn [_database entries calls].
      destruct (m !! key) as [[[[[allowance last] excesses] status] ttl]|];
        cbn [fmap option_fmap option_map fst _A2_initial].
      - destruct (bool_decide (status = STATUS_EXTENDED_BLOCK)) eqn:Hb.
        + apply bool_decide_eq_true_1 in Hb as ->.
          split; [cbn; tauto | discriminate].
        + rewrite _A2_continue_raises. split; [cbn; tauto | discriminate].
      - rewrite _A2_continue_raises. split; [cbn; tauto | discriminate]. }
    destruct (algorithm =? _A3_ALGORITHM_ID)%Z eqn:E3.
    - apply Z.eqb_eq in E3. split; [cbn; tauto | intros _; exact E3].
    - split; [cbn; tauto | discriminate]. }
  destruct Hin as [Hin H3]. split; [exact Hin |]. split.
  { destruct (decide (algorithm = _A3_ALGORITHM_ID)) as [E | E];
      [right; exact E | left; intros H; apply E, H3, H]. }
  split; intros Heq; rewrite Heq in Hin; cbn in Hin;
    repeat (destruct Hin as [Hin | Hin]; [discriminate Hin |]); exact Hin.
Qed.
